(** * Session model and configuration loader of code-review-backend

    A shallow embedding of [src/models/session.ts] (the [Session] class and
    the [SessionState] enum) and of the session part of
    [src/config/app.config.ts] (the environment readers and [appConfig]),
    followed by the properties of the session lifecycle specification that
    concern them.  The rest of [appConfig], the part of the logger module
    that is built from it, four of the logging helpers and the error
    middleware of the server are embedded after that, with the behaviour
    the code shows for them.

    Conventions of the embedding:
    - a JavaScript time value is a [Z], in milliseconds since the epoch; a
      [Date] object is either valid, with its time value, or the Invalid
      Date, whose time value is NaN;
    - a property that may be [undefined] is an [option];
    - the impure calls of the constructor ([uuidv4()], [new Date()],
      [Date.now()]) go through an explicit [World], threaded by a small
      state monad, so that two reads of the clock are two reads;
    - [process.env] is a finite map from names to strings. *)

From Stdlib Require Import ZArith Lia String Ascii Bool List DecimalString.
From stdpp Require Import base strings gmap.

Local Open Scope string_scope.
Local Open Scope Z_scope.

(** ** JavaScript values used by the session model *)

Module Js.

(** The payload of a property typed [any]. *)
#[warnings="-register-all"]
Inductive JsValue : Type :=
| JsNull
| JsBool (b : bool)
| JsNumber (n : Z)
| JsString (s : string)
| JsObject (fields : list (string * JsValue)).

(** Truthiness of a string: every string but the empty one. *)
Definition truthy (s : string) : bool :=
  match s with
  | EmptyString => false
  | String _ _ => true
  end.

(** Truthiness of a string property that may be [undefined]. *)
Definition truthy_opt (o : option string) : bool :=
  match o with
  | Some s => truthy s
  | None => false
  end.

(** [Date] objects. *)
Inductive Date : Type :=
| ValidDate (ms : Z)
| InvalidDate.

(** The largest magnitude of a time value (ECMA-262, TimeClip). *)
Definition maxTimeValue : Z := 8640000000000000.

Definition in_time_range (t : Z) : bool :=
  (- maxTimeValue <=? t) && (t <=? maxTimeValue).

(** [new Date(t)] for a number [t]. *)
Definition Date_of_number (t : Z) : Date :=
  if in_time_range t then ValidDate t else InvalidDate.

(** [a > b] on two [Date] objects: both are converted to their time values,
    and a comparison with NaN is false. *)
Definition Date_gt (a b : Date) : bool :=
  match a, b with
  | ValidDate x, ValidDate y => y <? x
  | _, _ => false
  end.

(** The string held by a timestamp property of a JSON object.  [Iso t] is
    the ISO-8601 text ([YYYY-MM-DDTHH:mm:ss.sssZ]) of the time value [t],
    which carries the milliseconds; [Unparseable s] is any text the date
    parser rejects. *)
Inductive DateString : Type :=
| Iso (ms : Z)
| Unparseable (s : string).

(** How a call completes: with a value, or by throwing. *)
Inductive Completion (A : Type) : Type :=
| Returns (a : A)
| Throws (errorName : string).
Arguments Returns {A} a.
Arguments Throws {A} errorName.

(** [d.toISOString()]: a RangeError on the Invalid Date. *)
Definition toISOString (d : Date) : Completion DateString :=
  match d with
  | ValidDate t => Returns (Iso t)
  | InvalidDate => Throws "RangeError"
  end.

(** [new Date(v)] for a property [v] of a JSON object: [undefined] and
    unparseable text give the Invalid Date. *)
Definition Date_of_property (v : option DateString) : Date :=
  match v with
  | Some (Iso t) => Date_of_number t
  | Some (Unparseable _) => InvalidDate
  | None => InvalidDate
  end.

(** [parseInt(s, 10)].  Leading white space is skipped (the ASCII white
    space and line terminators; the model does not decode the non-ASCII
    ones), one sign is read, then the longest run of decimal digits; no
    digit gives NaN.  The model returns the mathematical value, which is
    the JavaScript number for every magnitude below 2^53. *)
Inductive Number : Type :=
| Num (n : Z)
| NaN.

Definition is_white_space (c : ascii) : bool :=
  let n := nat_of_ascii c in
  ((9 <=? n)%nat && (n <=? 13)%nat) || (n =? 32)%nat.

Definition digit_value (c : ascii) : option Z :=
  let n := nat_of_ascii c in
  if ((48 <=? n)%nat && (n <=? 57)%nat)%bool
  then Some (Z.of_nat n - 48)
  else None.

Fixpoint skip_white_space (s : string) : string :=
  match s with
  | String c rest => if is_white_space c then skip_white_space rest else s
  | EmptyString => s
  end.

Fixpoint read_digits (s : string) (acc : Z) : Z :=
  match s with
  | String c rest =>
      match digit_value c with
      | Some d => read_digits rest (10 * acc + d)
      | None => acc
      end
  | EmptyString => acc
  end.

Definition read_unsigned (s : string) : Number :=
  match s with
  | String c _ =>
      match digit_value c with
      | Some _ => Num (read_digits s 0)
      | None => NaN
      end
  | EmptyString => NaN
  end.

Definition negate (n : Number) : Number :=
  match n with
  | Num z => Num (- z)
  | NaN => NaN
  end.

Definition parseInt10 (s : string) : Number :=
  match skip_white_space s with
  | String "-" rest => negate (read_unsigned rest)
  | String "+" rest => read_unsigned rest
  | t => read_unsigned t
  end.

End Js.

(** ** The world the constructor reads: clock and identifier generator *)

Module Sys.

Record World : Type := mkWorld {
  clock : nat -> Z;          (* the successive readings of the system clock *)
  clock_reads : nat;         (* how many readings were taken *)
  uuid_source : nat -> string; (* the successive results of [uuidv4()] *)
  uuids_drawn : nat
}.

Definition IO (A : Type) : Type := World -> A * World.

Definition ret {A : Type} (a : A) : IO A := fun w => (a, w).

Definition bind {A B : Type} (m : IO A) (k : A -> IO B) : IO B :=
  fun w => let (a, w') := m w in k a w'.

(** The reading the clock gives next. *)
Definition current_time (w : World) : Z := clock w (clock_reads w).

(** [Date.now()]. *)
Definition Date_now : IO Z :=
  fun w => (current_time w,
            mkWorld (clock w) (S (clock_reads w)) (uuid_source w) (uuids_drawn w)).

(** [new Date()]. *)
Definition Date_new : IO Js.Date :=
  bind Date_now (fun t => ret (Js.ValidDate t)).

(** [uuidv4()]. *)
Definition uuidv4 : IO string :=
  fun w => (uuid_source w (uuids_drawn w),
            mkWorld (clock w) (clock_reads w) (uuid_source w) (S (uuids_drawn w))).

End Sys.

Notation "'let*' x ':=' m 'in' k" := (Sys.bind m (fun x => k))
  (at level 10, x name, m at level 100, k at level 200).

(** ** [src/models/session.ts] *)

Module SessionModel.
Import Js Sys.

(** [enum SessionState]; every member is a non-empty string, hence truthy. *)
Inductive SessionState : Type :=
| CREATED
| UPLOADED
| ANALYZING
| COMPLETED
| ERROR.

Definition SessionState_value (st : SessionState) : string :=
  match st with
  | CREATED => "created"
  | UPLOADED => "uploaded"
  | ANALYZING => "analyzing"
  | COMPLETED => "completed"
  | ERROR => "error"
  end.

(** The fields of [class Session].  [fileName] and [language] are declared
    [string], but the constructor stores [data.fileName!] and
    [data.language!] as they come, so they are [undefined] when the caller
    left them out. *)
Record Session : Type := mkSession {
  sessionID : string;
  regSessionI : option string;
  fileName : option string;
  language : option string;
  state : SessionState;
  createdAt : Date;
  expiresAt : Date;
  filePath : option string;
  analysisResult : option JsValue
}.

(** [Partial<Session>], the argument of the constructor. *)
Record SessionData : Type := mkData {
  d_sessionID : option string;
  d_regSessionI : option string;
  d_fileName : option string;
  d_language : option string;
  d_state : option SessionState;
  d_createdAt : option Date;
  d_expiresAt : option Date;
  d_filePath : option string;
  d_analysisResult : option JsValue
}.

(** The object [toJSON] builds and [fromJSON] reads; a key that is not set
    is [None]. *)
Record SessionJSON : Type := mkJSON {
  j_sessionID : option string;
  j_regSessionI : option string;
  j_fileName : option string;
  j_language : option string;
  j_state : option SessionState;
  j_createdAt : option DateString;
  j_expiresAt : option DateString;
  j_filePath : option string;
  j_analysisResult : option JsValue
}.

(** The default lifetime written in the constructor. *)
Definition defaultLifetimeMs : Z := 24 * 60 * 60 * 1000.

(** [constructor(data: Partial<Session>)].  Each [||] evaluates its right
    operand only when the left one is falsy; a [Date] object is always
    truthy, the Invalid Date too. *)
Definition new_Session (data : SessionData) : IO Session :=
  let* id :=
    (match d_sessionID data with
     | Some s => if truthy s then ret s else uuidv4
     | None => uuidv4
     end) in
  let st :=
    match d_state data with
    | Some st => st
    | None => CREATED
    end in
  let* created :=
    (match d_createdAt data with
     | Some d => ret d
     | None => Date_new
     end) in
  let* expires :=
    (match d_expiresAt data with
     | Some d => ret d
     | None => let* t := Date_now in ret (Date_of_number (t + defaultLifetimeMs))
     end) in
  ret {| sessionID := id;
         regSessionI := None;
         fileName := d_fileName data;
         language := d_language data;
         state := st;
         createdAt := created;
         expiresAt := expires;
         filePath := d_filePath data;
         analysisResult := None |}.

(** [validate()]. *)
Definition validate (s : Session) : bool :=
  truthy (sessionID s) && truthy_opt (fileName s) && negb (truthy_opt (language s)).

(** [isExpired()]. *)
Definition isExpired (s : Session) : IO bool :=
  let* now := Date_new in ret (Date_gt now (expiresAt s)).

(** [updateState(newState)]: the assignment [this.state = newState]. *)
Definition updateState (newState : SessionState) (s : Session) : Session :=
  {| sessionID := sessionID s;
     regSessionI := regSessionI s;
     fileName := fileName s;
     language := language s;
     state := newState;
     createdAt := createdAt s;
     expiresAt := expiresAt s;
     filePath := filePath s;
     analysisResult := analysisResult s |}.

(** [toJSON()]: six keys; the two timestamps go through [toISOString],
    [createdAt] first. *)
Definition toJSON (s : Session) : Completion SessionJSON :=
  match toISOString (createdAt s) with
  | Throws e => Throws e
  | Returns c =>
      match toISOString (expiresAt s) with
      | Throws e => Throws e
      | Returns x =>
          Returns {| j_sessionID := Some (sessionID s);
                     j_regSessionI := None;
                     j_fileName := fileName s;
                     j_language := language s;
                     j_state := Some (state s);
                     j_createdAt := Some c;
                     j_expiresAt := Some x;
                     j_filePath := None;
                     j_analysisResult := None |}
      end
  end.

(** [static fromJSON(json)]: the keys of [json] are spread into the
    constructor's argument, then [createdAt] and [expiresAt] are replaced
    by [new Date(json.createdAt)] and [new Date(json.expiresAt)]. *)
Definition fromJSON (json : SessionJSON) : IO Session :=
  new_Session {| d_sessionID := j_sessionID json;
                 d_regSessionI := j_regSessionI json;
                 d_fileName := j_fileName json;
                 d_language := j_language json;
                 d_state := j_state json;
                 d_createdAt := Some (Date_of_property (j_createdAt json));
                 d_expiresAt := Some (Date_of_property (j_expiresAt json));
                 d_filePath := j_filePath json;
                 d_analysisResult := j_analysisResult json |}.

End SessionModel.

(** ** [src/config/app.config.ts] *)

Module AppConfig.
Import Js.

(** [getEnvString(key, defaultValue)]: [process.env[key] || defaultValue]. *)
Definition getEnvString (env : gmap string string) (key defaultValue : string) : string :=
  match env !! key with
  | Some value => if truthy value then value else defaultValue
  | None => defaultValue
  end.

(** [getEnvNumber(key, defaultValue)]:
    [value ? parseInt(value, 10) : defaultValue]. *)
Definition getEnvNumber (env : gmap string string) (key : string) (defaultValue : Number) : Number :=
  match env !! key with
  | Some value => if truthy value then parseInt10 value else defaultValue
  | None => defaultValue
  end.

(** The "Session Configuration" group of [appConfig]. *)
Record SessionConfig : Type := mkSessionConfig {
  sessionTimeoutHours : Number;
  sessionCleanupIntervalHours : Number;
  sessionDirectory : string
}.

Definition appConfig (env : gmap string string) : SessionConfig :=
  {| sessionTimeoutHours := getEnvNumber env "SESSION_TIMEOUT_HOURS" (Num 24);
     sessionCleanupIntervalHours := getEnvNumber env "SESSION_CLEANUP_INTERVAL_HOURS" (Num 1);
     sessionDirectory := getEnvString env "SESSION_DIRECTORY" "./sessions" |}.

End AppConfig.

(** ** The wording of the lifecycle specification

    These definitions follow the specification's text, not the code; the
    theorems below compare the code with them. *)

Module Spec.
Import Js SessionModel.

(** The transition table of the specification (section 4.2). *)
Definition transition_allowed (from to : SessionState) : bool :=
  match from, to with
  | CREATED, UPLOADED | CREATED, ERROR => true
  | UPLOADED, ANALYZING | UPLOADED, ERROR => true
  | ANALYZING, COMPLETED | ANALYZING, ERROR => true
  | _, _ => false
  end.

(** Inputs the specification wants construction to reject: an empty (or
    missing) [fileName] or [language]. *)
Definition must_reject (data : SessionData) : bool :=
  negb (truthy_opt (d_fileName data)) || negb (truthy_opt (d_language data)).

(** [d + ms] on timestamps. *)
Definition Date_plus (d : Date) (ms : Z) : Date :=
  match d with
  | ValidDate t => Date_of_number (t + ms)
  | InvalidDate => InvalidDate
  end.

(** "Current time >= expiresAt" (section 3). *)
Definition at_or_past (now : Z) (expiry : Date) : bool :=
  match expiry with
  | ValidDate e => e <=? now
  | InvalidDate => false
  end.

(** A positive integer setting. *)
Definition positive_setting (n : Number) : bool :=
  match n with
  | Num z => 0 <? z
  | NaN => false
  end.

End Spec.

(** ** Concrete worlds, sessions and environments used in the examples *)

Module Examples.
Import Js Sys SessionModel.

(** A clock that starts at [t0] and advances by [step] ms per reading. *)
Definition ticking (t0 step : Z) : World :=
  {| clock := fun n => t0 + step * Z.of_nat n;
     clock_reads := 0;
     uuid_source := fun _ => "3f2b8c1e-5d4a-4c6b-9e7f-0a1b2c3d4e5f";
     uuids_drawn := 0 |}.

Definition no_overrides (file lang : string) : SessionData :=
  {| d_sessionID := None; d_regSessionI := None;
     d_fileName := Some file; d_language := Some lang;
     d_state := None; d_createdAt := None; d_expiresAt := None;
     d_filePath := None; d_analysisResult := None |}.

(** A session that finished its analysis. *)
Definition finished : Session :=
  {| sessionID := "s-1"; regSessionI := None;
     fileName := Some "main.py"; language := Some "python";
     state := COMPLETED;
     createdAt := ValidDate 1000; expiresAt := ValidDate 86401000;
     filePath := Some "/tmp/x";
     analysisResult := Some (JsObject (("issues", JsNumber 0) :: nil)) |}.

(** Overrides whose expiry precedes the creation time. *)
Definition backwards : SessionData :=
  {| d_sessionID := Some "s-2"; d_regSessionI := None;
     d_fileName := Some "a.go"; d_language := Some "go";
     d_state := None;
     d_createdAt := Some (ValidDate 2000); d_expiresAt := Some (ValidDate 1000);
     d_filePath := None; d_analysisResult := None |}.

(** What [toJSON] gives for [finished]. *)
Definition finished_json : SessionJSON :=
  {| j_sessionID := Some "s-1"; j_regSessionI := None;
     j_fileName := Some "main.py"; j_language := Some "python";
     j_state := Some COMPLETED;
     j_createdAt := Some (Iso 1000); j_expiresAt := Some (Iso 86401000);
     j_filePath := None; j_analysisResult := None |}.

Definition negative_timeout_env : gmap string string :=
  {[ "SESSION_TIMEOUT_HOURS" := "-5" ]}.

End Examples.

(** ** Text operations of the runtime used by the rest of the code

    Strings are sequences of bytes (UTF-8).  The operations below act on
    the ASCII range, which is where the code applies them: the separator is
    a comma, the word compared with is [true], and the white space removed
    is the ASCII white space and line terminators (the model does not
    decode the non-ASCII ones). *)

Module JsText.
Import Js.

(** One character of [s.toLowerCase()]. *)
Definition lower_char (c : ascii) : ascii :=
  let n := nat_of_ascii c in
  if ((65 <=? n)%nat && (n <=? 90)%nat)%bool then ascii_of_nat (n + 32) else c.

(** [s.toLowerCase()]. *)
Fixpoint toLowerCase (s : string) : string :=
  match s with
  | EmptyString => EmptyString
  | String c rest => String (lower_char c) (toLowerCase rest)
  end.

(** [s.split(sep)] for a one-character separator: the pieces between the
    separators, empty pieces included; the empty string gives one empty
    piece. *)
Fixpoint split (sep : ascii) (s : string) : list string :=
  match s with
  | EmptyString => EmptyString :: nil
  | String c rest =>
      if Ascii.eqb c sep then EmptyString :: split sep rest
      else match split sep rest with
           | piece :: pieces => String c piece :: pieces
           | nil => String c EmptyString :: nil
           end
  end.

(** [s.trimEnd()]. *)
Fixpoint trimEnd (s : string) : string :=
  match s with
  | EmptyString => EmptyString
  | String c rest =>
      match trimEnd rest with
      | EmptyString => if is_white_space c then EmptyString else String c EmptyString
      | kept => String c kept
      end
  end.

(** [s.trim()]. *)
Definition trim (s : string) : string := trimEnd (skip_white_space s).

(** A number inside a template literal, for an integer. *)
Definition Number_toString (n : Z) : string :=
  DecimalString.NilZero.string_of_int (Z.to_int n).


(** How many times [c] occurs in [s]. *)
Fixpoint occurrences (c : ascii) (s : string) : nat :=
  match s with
  | EmptyString => 0%nat
  | String d rest => ((if Ascii.eqb d c then 1 else 0) + occurrences c rest)%nat
  end.

End JsText.

(** ** The rest of [src/config/app.config.ts] *)

Module AppConfigAll.
Import Js JsText AppConfig.

(** [getEnvBoolean(key, defaultValue)]. *)
Definition getEnvBoolean (env : gmap string string) (key : string) (defaultValue : bool) : bool :=
  match env !! key with
  | Some value =>
      if truthy value then String.eqb (toLowerCase value) "true" else defaultValue
  | None => defaultValue
  end.

(** [const RAG_BASE_URL = process.env.RAG_BASE_URL || '']. *)
Definition RAG_BASE_URL (env : gmap string string) : string :=
  match env !! "RAG_BASE_URL" with
  | Some value => if truthy value then value else ""
  | None => ""
  end.

(** Every property of [appConfig], in the order of the source. *)
Record Config : Type := mkConfig {
  nodeEnv : string;
  port : Number;
  host : string;
  logLevel : string;
  logToConsole : bool;
  logToFile : bool;
  logDirectory : string;
  maxFileSizeMB : Number;
  allowedExtensions : list string;
  uploadDirectory : string;
  sessionTimeoutHours : Number;
  sessionCleanupIntervalHours : Number;
  sessionDirectory : string;
  ragBaseUrl : string;
  ragTimeout : Number;
  ragRetryAttempts : Number;
  enableStaticAnalysis : bool;
  enableSecurityAnalysis : bool;
  enableComplexityAnalysis : bool;
  enableStyleChecking : bool;
  enableRagAnalysis : bool;
  cyclomaticComplexityThreshold : Number;
  cognitiveComplexityThreshold : Number;
  maxNestingDepth : Number;
  rateLimitWindowMinutes : Number;
  rateLimitMaxRequests : Number
}.

(** [appConfig] with all its properties. *)
Definition appConfig_all (env : gmap string string) : Config :=
  {| nodeEnv := getEnvString env "NODE_ENV" "development";
     port := getEnvNumber env "PORT" (Num 3000);
     host := getEnvString env "HOST" "localhost";
     logLevel := getEnvString env "LOG_LEVEL" "info";
     logToConsole := getEnvBoolean env "LOG_TO_CONSOLE" true;
     logToFile := getEnvBoolean env "LOG_TO_FILE" true;
     logDirectory := getEnvString env "LOG_DIRECTORY" "./logs";
     maxFileSizeMB := getEnvNumber env "MAX_FILE_SIZE_MB" (Num 1);
     allowedExtensions :=
       map trim (split "," (getEnvString env "ALLOWED_EXTENSIONS"
                              ".py,.js,.java,.ts,.jsx,.tsx"));
     uploadDirectory := getEnvString env "UPLOAD_DIRECTORY" "./uploads";
     sessionTimeoutHours := getEnvNumber env "SESSION_TIMEOUT_HOURS" (Num 24);
     sessionCleanupIntervalHours :=
       getEnvNumber env "SESSION_CLEANUP_INTERVAL_HOURS" (Num 1);
     sessionDirectory := getEnvString env "SESSION_DIRECTORY" "./sessions";
     ragBaseUrl := getEnvString env "RAG_BASE_URL" (RAG_BASE_URL env);
     ragTimeout := getEnvNumber env "RAG_TIMEOUT" (Num 30000);
     ragRetryAttempts := getEnvNumber env "RAG_RETRY_ATTEMPTS" (Num 3);
     enableStaticAnalysis := getEnvBoolean env "ENABLE_STATIC_ANALYSIS" true;
     enableSecurityAnalysis := getEnvBoolean env "ENABLE_SECURITY_ANALYSIS" true;
     enableComplexityAnalysis := getEnvBoolean env "ENABLE_COMPLEXITY_ANALYSIS" true;
     enableStyleChecking := getEnvBoolean env "ENABLE_STYLE_CHECKING" true;
     enableRagAnalysis := getEnvBoolean env "ENABLE_RAG_ANALYSIS" true;
     cyclomaticComplexityThreshold :=
       getEnvNumber env "CYCLOMATIC_COMPLEXITY_THRESHOLD" (Num 5);
     cognitiveComplexityThreshold :=
       getEnvNumber env "COGNITIVE_COMPLEXITY_THRESHOLD" (Num 7);
     maxNestingDepth := getEnvNumber env "MAX_NESTING_DEPTH" (Num 2);
     rateLimitWindowMinutes := getEnvNumber env "RATE_LIMIT_WINDOW_MINUTES" (Num 15);
     rateLimitMaxRequests := getEnvNumber env "RATE_LIMIT_MAX_REQUESTS" (Num 100) |}.

End AppConfigAll.

(** ** The logger module ([utils/logger.ts])

    The winston objects are described by the options they are created
    with; the [format] options, which are winston combinators, are left
    out, and so is the creation of the log directory on disk.  The calls
    [logger.log(level, message, metadata)] are recorded in the order they
    are made.  Numbers are integers. *)

Module Logger.
Import Js JsText AppConfigAll.

Inductive Target : Type :=
| Console
| File (filename : string).

Record Transport : Type := mkTransport {
  target : Target;
  level : option string;
  maxsize : option Z;
  maxFiles : option Z
}.

Record LoggerOptions : Type := mkLoggerOptions {
  opt_level : string;
  opt_transports : list Transport;
  exitOnError : bool;
  exceptionHandlers : list Transport;
  rejectionHandlers : list Transport
}.

(** One call of [logger.log]; [call_meta] is [None] when the metadata
    argument is [undefined]. *)
Record LogCall : Type := mkLogCall {
  call_level : string;
  call_message : string;
  call_meta : option (gmap string JsValue)
}.

(** The operations [logSession] and [logRag] accept. *)
Inductive SessionOperation : Type :=
| OpCreated
| OpUpdated
| OpDeleted
| OpExpired.

Definition SessionOperation_text (op : SessionOperation) : string :=
  match op with
  | OpCreated => "created"
  | OpUpdated => "updated"
  | OpDeleted => "deleted"
  | OpExpired => "expired"
  end.

Inductive RagOperation : Type :=
| RagSessionCreated
| RagQuestionAsked
| RagResponseReceived
| RagError.

Definition RagOperation_text (op : RagOperation) : string :=
  match op with
  | RagSessionCreated => "session_created"
  | RagQuestionAsked => "question_asked"
  | RagResponseReceived => "response_received"
  | RagError => "error"
  end.

(** [{...metadata}] appended to an object literal: the keys of [metadata]
    replace the keys written before the spread; an [undefined] metadata
    adds nothing. *)
Definition spread_over (metadata : option (gmap string JsValue))
    (written : gmap string JsValue) : gmap string JsValue :=
  match metadata with
  | Some m => m ∪ written
  | None => written
  end.

Section Node.

(** [path.resolve] and [path.join] of the runtime, and the pictographs
    that start some messages. *)
Variable path_resolve : string -> string.
Variable path_join : string -> string -> string.
Variable session_pictograph : SessionOperation -> string.
Variable rag_pictograph : string.
Variable performance_pictograph : string.

(** [const logDirectory = path.resolve(appConfig.logDirectory || './logs')]. *)
Definition logDirectory (env : gmap string string) : string :=
  let configured := AppConfigAll.logDirectory (appConfig_all env) in
  path_resolve (if truthy configured then configured else "./logs").

Definition fileTransport (env : gmap string string) (name : string)
    (lvl : option string) : Transport :=
  {| target := File (path_join (logDirectory env) name);
     level := lvl;
     maxsize := Some 5242880;
     maxFiles := Some 5 |}.

(** The array [transports] after the two [if] blocks. *)
Definition transports (env : gmap string string) : list Transport :=
  (if logToConsole (appConfig_all env)
   then {| target := Console;
           level := Some (logLevel (appConfig_all env));
           maxsize := None; maxFiles := None |} :: nil
   else nil) ++
  (if logToFile (appConfig_all env)
   then fileTransport env "error.log" (Some "error")
        :: fileTransport env "combined.log" None
        :: fileTransport env "access.log" (Some "http")
        :: nil
   else nil).

Definition handlerTransport (env : gmap string string) (name : string) : Transport :=
  {| target := File (path_join (logDirectory env) name);
     level := None; maxsize := None; maxFiles := None |}.

(** The options of [winston.createLogger]. *)
Definition loggerOptions (env : gmap string string) : LoggerOptions :=
  {| opt_level :=
       (let configured := logLevel (appConfig_all env) in
        if truthy configured then configured else "info");
     opt_transports := transports env;
     exitOnError := false;
     exceptionHandlers :=
       (if logToFile (appConfig_all env)
        then handlerTransport env "exceptions.log" :: nil else nil);
     rejectionHandlers :=
       (if logToFile (appConfig_all env)
        then handlerTransport env "rejections.log" :: nil else nil) |}.

(** [logRequest(method, url, statusCode, duration, metadata)]. *)
Definition logRequest (method url : string) (statusCode duration : Z)
    (metadata : option (gmap string JsValue)) (calls : list LogCall) : list LogCall :=
  let lvl := if 400 <=? statusCode then "error" else "http" in
  let message :=
    method ++ " " ++ url ++ " " ++ Number_toString statusCode ++ " "
           ++ Number_toString duration ++ "ms" in
  calls ++ {| call_level := lvl; call_message := message; call_meta := metadata |} :: nil.

(** [logSession(operation, sessionId, metadata)]. *)
Definition logSession (operation : SessionOperation) (sessionId : string)
    (metadata : option (gmap string JsValue)) (calls : list LogCall) : list LogCall :=
  calls ++
  {| call_level := "info";
     call_message :=
       session_pictograph operation ++ " Session " ++ SessionOperation_text operation;
     call_meta :=
       Some (spread_over metadata
               (<["operation" := JsString (SessionOperation_text operation)]>
                  (<["sessionId" := JsString sessionId]> ∅))) |} :: nil.

(** [logRag(operation, sessionId, metadata)]. *)
Definition logRag (operation : RagOperation) (sessionId : string)
    (metadata : option (gmap string JsValue)) (calls : list LogCall) : list LogCall :=
  let lvl :=
    if String.eqb (RagOperation_text operation) "error" then "error" else "info" in
  calls ++
  {| call_level := lvl;
     call_message := rag_pictograph ++ " RAG: " ++ RagOperation_text operation;
     call_meta :=
       Some (spread_over metadata
               (<["operation" := JsString (RagOperation_text operation)]>
                  (<["sessionId" := JsString sessionId]> ∅))) |} :: nil.

(** [logPerformance(operation, duration, metadata)]. *)
Definition logPerformance (operation : string) (duration : Z)
    (metadata : option (gmap string JsValue)) (calls : list LogCall) : list LogCall :=
  let lvl := if 1000 <? duration then "warn" else "debug" in
  calls ++
  {| call_level := lvl;
     call_message := performance_pictograph ++ " Performance: " ++ operation;
     call_meta :=
       Some (spread_over metadata
               (<["duration" := JsString (Number_toString duration ++ "ms")]>
                  (<["operation" := JsString operation]> ∅))) |} :: nil.

End Node.

End Logger.

(** ** The error-handling middleware of the server entry point *)

Module Server.

Record ErrorObject : Type := mkError {
  err_message : string;
  err_stack : option string
}.

(** What the middleware sends: the status and the two keys of the JSON
    body; [body_message] is [None] when the key is [undefined]. *)
Record ErrorResponse : Type := mkErrorResponse {
  status : Z;
  body_error : string;
  body_message : option string
}.

(** The middleware [(err, req, res, next) => ...]: the line printed by
    [console.error(err.stack)] and the response. *)
Definition errorHandler (env : gmap string string) (err : ErrorObject)
    : option string * ErrorResponse :=
  (err_stack err,
   {| status := 500;
      body_error := "Internal Server Error";
      body_message :=
        match env !! "NODE_ENV" with
        | Some v => if String.eqb v "development" then Some (err_message err) else None
        | None => None
        end |}).

End Server.

(** ** Further concrete inputs *)

Module MoreExamples.
Import Js Sys SessionModel.

(** A JSON object without timestamps. *)
Definition undated_json : SessionJSON :=
  {| j_sessionID := Some "s-3"; j_regSessionI := None;
     j_fileName := Some "a.go"; j_language := Some "go";
     j_state := Some UPLOADED;
     j_createdAt := None; j_expiresAt := None;
     j_filePath := Some "/tmp/a.go"; j_analysisResult := None |}.

(** A JSON object with every key set. *)
Definition full_json : SessionJSON :=
  {| j_sessionID := Some "s-4"; j_regSessionI := Some "r-4";
     j_fileName := Some "a.go"; j_language := Some "go";
     j_state := Some ANALYZING;
     j_createdAt := Some (Iso 1000); j_expiresAt := Some (Iso 86401000);
     j_filePath := Some "/tmp/a.go";
     j_analysisResult := Some (JsString "pending") |}.

Definition quiet_env : gmap string string :=
  <["LOG_TO_CONSOLE" := "false"]> (<["LOG_TO_FILE" := "0"]> ∅).

End MoreExamples.

(** ** What the constructor stores *)

Section Constructor.
Import Js Sys SessionModel.

(** Running an [IO] computation in a world. *)
Lemma bind_run {A B : Type} (m : IO A) (k : A -> IO B) (w : World) :
  bind m k w = k (fst (m w)) (snd (m w)).
Proof. unfold bind. destruct (m w) as [a w']. reflexivity. Qed.

(** Every member of [SessionState] is truthy, so [data.state || CREATED]
    falls back to [CREATED] only when [data.state] is missing. *)
Lemma SessionState_truthy (st : SessionState) :
  truthy (SessionState_value st) = true.
Proof. destruct st; reflexivity. Qed.

(** Drawing an identifier does not touch the clock. *)
Lemma uuidv4_keeps_clock (w : World) :
  clock (snd (uuidv4 w)) = clock w /\ clock_reads (snd (uuidv4 w)) = clock_reads w.
Proof. split; reflexivity. Qed.

Lemma new_Session_fileName (data : SessionData) (w : World) :
  fileName (fst (new_Session data w)) = d_fileName data.
Proof.
  unfold new_Session. rewrite !bind_run.
  destruct (d_createdAt data), (d_expiresAt data); reflexivity.
Qed.

Lemma new_Session_language (data : SessionData) (w : World) :
  language (fst (new_Session data w)) = d_language data.
Proof.
  unfold new_Session. rewrite !bind_run.
  destruct (d_createdAt data), (d_expiresAt data); reflexivity.
Qed.

Lemma new_Session_state (data : SessionData) (w : World) :
  state (fst (new_Session data w)) =
  match d_state data with Some st => st | None => CREATED end.
Proof.
  unfold new_Session. rewrite !bind_run.
  destruct (d_createdAt data), (d_expiresAt data); reflexivity.
Qed.

Lemma new_Session_analysisResult (data : SessionData) (w : World) :
  analysisResult (fst (new_Session data w)) = None.
Proof.
  unfold new_Session. rewrite !bind_run.
  destruct (d_createdAt data), (d_expiresAt data); reflexivity.
Qed.

(** An override of a timestamp is stored as given. *)
Lemma new_Session_createdAt_override (data : SessionData) (w : World) (d : Date) :
  d_createdAt data = Some d -> createdAt (fst (new_Session data w)) = d.
Proof.
  intros H. unfold new_Session. rewrite !bind_run, H.
  destruct (d_expiresAt data); reflexivity.
Qed.

Lemma new_Session_expiresAt_override (data : SessionData) (w : World) (d : Date) :
  d_expiresAt data = Some d -> expiresAt (fst (new_Session data w)) = d.
Proof.
  intros H. unfold new_Session. rewrite !bind_run, H.
  destruct (d_createdAt data); reflexivity.
Qed.

(** Without overrides the two timestamps come from two successive readings
    of the clock. *)
Lemma new_Session_default_timestamps (data : SessionData) (w : World) :
  d_createdAt data = None ->
  d_expiresAt data = None ->
  createdAt (fst (new_Session data w)) = ValidDate (clock w (clock_reads w)) /\
  expiresAt (fst (new_Session data w)) =
    Date_of_number (clock w (S (clock_reads w)) + defaultLifetimeMs).
Proof.
  intros Hc He. unfold new_Session. rewrite Hc, He.
  destruct (d_sessionID data) as [id|]; [destruct (truthy id)|];
    split; reflexivity.
Qed.

End Constructor.

(** ** Properties of the session record *)

Section SessionProperties.
Import Js Sys SessionModel Spec Examples.

(** C1, the claim as stated fails: a session in the terminal state
    [COMPLETED] is asked to go back to [CREATED]; the pair is not in the
    transition table, and [updateState] changes the state all the same. *)
Lemma updateState_ignores_transition_table :
  state finished = COMPLETED /\
  transition_allowed (state finished) CREATED = false /\
  state (updateState CREATED finished) = CREATED /\
  state (updateState CREATED finished) <> state finished.
Proof. repeat split; discriminate. Qed.

(** C1, amended: for every session and every requested state, in the
    transition table or not, [updateState] completes and the state is the
    requested one; no pair is refused. *)
Theorem updateState_sets_requested_state (s : Session) (newState : SessionState) :
  state (updateState newState s) = newState.
Proof. reflexivity. Qed.

(** C2, the claim as stated fails: with an empty [fileName], and likewise
    with an empty [language], the constructor returns a record that holds
    the empty string; nothing is rejected. *)
Lemma constructor_accepts_empty_fields :
  must_reject (no_overrides "" "go") = true /\
  fileName (fst (new_Session (no_overrides "" "go") (ticking 1000 1))) = Some "" /\
  must_reject (no_overrides "a.go" "") = true /\
  language (fst (new_Session (no_overrides "a.go" "") (ticking 1000 1))) = Some "".
Proof. repeat split. Qed.

(** C2, amended: the constructor performs no validation: for every input
    it returns a record holding [fileName] and [language] as given.
    Validation is the separate method [validate], which the constructor
    does not call and which never answers [true] for an empty
    [fileName]. *)
Theorem constructor_stores_without_validation (data : SessionData) (w : World) :
  let s := fst (new_Session data w) in
  fileName s = d_fileName data /\
  language s = d_language data /\
  negb (truthy_opt (d_fileName data)) && validate s = false.
Proof.
  cbv zeta. rewrite new_Session_fileName, new_Session_language.
  repeat split. unfold validate. rewrite new_Session_fileName.
  destruct (truthy_opt (d_fileName data)); [reflexivity|].
  rewrite andb_false_r. reflexivity.
Qed.

(** What [validate] answers on two records: its third conjunct is
    [!this.language], so a record with both fields filled in is turned
    down and one without a language passes. *)
Example validate_on_filled_record :
  validate (fst (new_Session (no_overrides "a.go" "go") (ticking 1000 1))) = false /\
  validate (fst (new_Session (no_overrides "a.go" "") (ticking 1000 1))) = true.
Proof. split; reflexivity. Qed.

(** C9: whatever the constructor is given, the session it builds has no
    [analysisResult]; this holds for [fromJSON] too, also when the JSON
    object carries one. *)
Theorem constructor_leaves_analysisResult_absent :
  (forall (data : SessionData) (w : World),
      analysisResult (fst (new_Session data w)) = None) /\
  (forall (json : SessionJSON) (w : World),
      analysisResult (fst (fromJSON json w)) = None).
Proof.
  split; intros; [|unfold fromJSON]; apply new_Session_analysisResult.
Qed.

(** C10: [updateState] changes the [state] field and nothing else. *)
Theorem updateState_frame (s : Session) (newState : SessionState) :
  let s' := updateState newState s in
  sessionID s' = sessionID s /\
  regSessionI s' = regSessionI s /\
  fileName s' = fileName s /\
  language s' = language s /\
  createdAt s' = createdAt s /\
  expiresAt s' = expiresAt s /\
  filePath s' = filePath s /\
  analysisResult s' = analysisResult s /\
  state s' = newState.
Proof. repeat split. Qed.

(** The default lifetime is 24 hours, in milliseconds. *)
Lemma defaultLifetimeMs_value : defaultLifetimeMs = 86400000.
Proof. reflexivity. Qed.

(** C3, the claim as stated fails: the constructor reads the clock once
    for [createdAt] and once more for [expiresAt]; when the clock has moved
    on by a millisecond in between, [expiresAt] is not
    [createdAt + 24h]. *)
Lemma constructor_expiry_drifts_from_createdAt :
  state (fst (new_Session (no_overrides "a.go" "go") (ticking 1000 1))) = CREATED /\
  createdAt (fst (new_Session (no_overrides "a.go" "go") (ticking 1000 1))) = ValidDate 1000 /\
  expiresAt (fst (new_Session (no_overrides "a.go" "go") (ticking 1000 1))) = ValidDate 86401001 /\
  expiresAt (fst (new_Session (no_overrides "a.go" "go") (ticking 1000 1))) <>
    Date_plus (createdAt (fst (new_Session (no_overrides "a.go" "go") (ticking 1000 1))))
              defaultLifetimeMs.
Proof. repeat split. discriminate. Qed.

(** C3, amended: a session created with no overrides has state [CREATED],
    [createdAt] equal to the clock reading taken for it, and [expiresAt]
    equal to the next clock reading plus exactly 24 hours; so
    [expiresAt = createdAt + 24h] exactly when the two readings agree. *)
Theorem constructor_defaults (data : SessionData) (w : World) :
  d_state data = None ->
  d_createdAt data = None ->
  d_expiresAt data = None ->
  in_time_range (clock w (S (clock_reads w)) + defaultLifetimeMs) = true ->
  state (fst (new_Session data w)) = CREATED /\
  createdAt (fst (new_Session data w)) = ValidDate (clock w (clock_reads w)) /\
  expiresAt (fst (new_Session data w)) =
    ValidDate (clock w (S (clock_reads w)) + 86400000) /\
  (expiresAt (fst (new_Session data w)) =
     Date_plus (createdAt (fst (new_Session data w))) defaultLifetimeMs
   <-> clock w (S (clock_reads w)) = clock w (clock_reads w)).
Proof.
  intros Hs Hc He Hr.
  destruct (new_Session_default_timestamps data w Hc He) as [Hcr Hex].
  rewrite new_Session_state, Hs, Hcr, Hex.
  unfold Date_of_number in *. rewrite Hr.
  rewrite defaultLifetimeMs_value in *.
  repeat split.
  - simpl. unfold Date_of_number.
    destruct (in_time_range (clock w (clock_reads w) + 86400000));
      [intros H; injection H; lia | discriminate].
  - intros Heq. simpl. unfold Date_of_number. rewrite <- Heq, Hr. reflexivity.
Qed.

Lemma constructor_defaults_witness :
  in_time_range (clock (ticking 1000 0) 1 + defaultLifetimeMs) = true /\
  state (fst (new_Session (no_overrides "a.go" "go") (ticking 1000 0))) = CREATED /\
  expiresAt (fst (new_Session (no_overrides "a.go" "go") (ticking 1000 0))) =
    ValidDate 86401000.
Proof.
  split; [reflexivity|].
  destruct (constructor_defaults (no_overrides "a.go" "go") (ticking 1000 0)
              eq_refl eq_refl eq_refl eq_refl) as (Hst & _ & Hex & _).
  split; [exact Hst | exact Hex].
Defined.

(** C4: [isExpired], evaluated when the clock reads [now], answers [true]
    if and only if [now > expiresAt]. *)
Theorem isExpired_iff_now_after_expiry (s : Session) (w : World) :
  fst (isExpired s w) = true <->
  exists e, expiresAt s = ValidDate e /\ e < current_time w.
Proof.
  unfold isExpired, Date_new, Date_now, bind, ret; simpl.
  destruct (expiresAt s) as [e|]; simpl; split.
  - intros H. exists e. split; [reflexivity | apply Z.ltb_lt, H].
  - intros (e' & He & Hlt). injection He as <-. apply Z.ltb_lt, Hlt.
  - discriminate.
  - intros (e' & He & _). discriminate.
Qed.

(** C5, the claim as stated fails: at the very instant [now = expiresAt]
    the expiry check answers [false]. *)
Lemma isExpired_false_at_expiry_instant :
  expiresAt finished = ValidDate 86401000 /\
  current_time (ticking 86401000 0) = 86401000 /\
  at_or_past (current_time (ticking 86401000 0)) (expiresAt finished) = true /\
  fst (isExpired finished (ticking 86401000 0)) = false.
Proof. repeat split. Qed.

(** C5, amended: for [now >= expiresAt] the expiry check answers [true]
    when [now > expiresAt] and [false] at the boundary [now = expiresAt]. *)
Theorem isExpired_past_but_not_at_expiry (s : Session) (w : World) (e : Z) :
  expiresAt s = ValidDate e ->
  e <= current_time w ->
  fst (isExpired s w) = negb (current_time w =? e).
Proof.
  intros He Hle.
  unfold isExpired, Date_new, Date_now, bind, ret; simpl. rewrite He; simpl.
  destruct (Z.eqb_spec (current_time w) e) as [Heq|Hne]; simpl.
  - apply Z.ltb_ge. lia.
  - apply Z.ltb_lt. lia.
Qed.

Lemma isExpired_past_but_not_at_expiry_witness :
  (expiresAt finished = ValidDate 86401000 /\
   86401000 <= current_time (ticking 86401001 0)) /\
  fst (isExpired finished (ticking 86401001 0)) = true.
Proof.
  split; [split; [reflexivity | discriminate]|].
  refine (isExpired_past_but_not_at_expiry finished (ticking 86401001 0) 86401000
            eq_refl _).
  discriminate.
Defined.

(** [toJSON] cannot serialize a session whose timestamp is the Invalid
    Date: [toISOString] throws. *)
Lemma toJSON_throws_on_invalid_date (s : Session) :
  createdAt s = InvalidDate \/ expiresAt s = InvalidDate ->
  toJSON s = Throws "RangeError".
Proof.
  unfold toJSON. intros [H|H]; rewrite H; simpl; [reflexivity|].
  destruct (createdAt s); reflexivity.
Qed.

(** Reading back the text [toISOString] wrote gives the same [Date]. *)
Lemma Date_of_property_Iso (t : Z) :
  in_time_range t = true -> Date_of_property (Some (Iso t)) = ValidDate t.
Proof. intros H. simpl. unfold Date_of_number. rewrite H. reflexivity. Qed.

(** C6, the claim as stated fails: a completed session carries an
    [analysisResult]; [toJSON] does not write it and the session read back
    by [fromJSON] has none. *)
Lemma json_round_trip_loses_analysisResult :
  toJSON finished = Returns finished_json /\
  analysisResult finished = Some (JsObject (("issues", JsNumber 0) :: nil)) /\
  analysisResult (fst (fromJSON finished_json (ticking 5000 1))) = None /\
  fst (fromJSON finished_json (ticking 5000 1)) <> finished.
Proof. repeat split. discriminate. Qed.

(** C6, amended: for a session with a non-empty identifier and valid
    timestamps, [fromJSON] after [toJSON] gives back [sessionID],
    [fileName], [language], [state], [createdAt] and [expiresAt], the
    timestamps to the millisecond, and reads neither the clock nor the
    identifier generator; [analysisResult] is not carried over. *)
Theorem json_round_trip_serialized_fields (s : Session) (w : World) (c e : Z) :
  truthy (sessionID s) = true ->
  createdAt s = ValidDate c -> in_time_range c = true ->
  expiresAt s = ValidDate e -> in_time_range e = true ->
  exists j : SessionJSON,
    toJSON s = Returns j /\
    sessionID (fst (fromJSON j w)) = sessionID s /\
    fileName (fst (fromJSON j w)) = fileName s /\
    language (fst (fromJSON j w)) = language s /\
    state (fst (fromJSON j w)) = state s /\
    createdAt (fst (fromJSON j w)) = ValidDate c /\
    expiresAt (fst (fromJSON j w)) = ValidDate e /\
    analysisResult (fst (fromJSON j w)) = None /\
    snd (fromJSON j w) = w.
Proof.
  intros Hid Hc Hcr He Her.
  unfold toJSON. rewrite Hc, He. simpl.
  eexists. split; [reflexivity|].
  unfold fromJSON, new_Session; simpl.
  unfold Date_of_number. rewrite Hid, Hcr, Her.
  repeat split.
Qed.

Lemma json_round_trip_serialized_fields_witness :
  (truthy (sessionID finished) = true /\
   in_time_range 1000 = true /\ in_time_range 86401000 = true) /\
  exists j : SessionJSON,
    toJSON finished = Returns j /\
    sessionID (fst (fromJSON j (ticking 5000 1))) = "s-1" /\
    createdAt (fst (fromJSON j (ticking 5000 1))) = ValidDate 1000 /\
    expiresAt (fst (fromJSON j (ticking 5000 1))) = ValidDate 86401000.
Proof.
  split; [repeat split|].
  destruct (json_round_trip_serialized_fields finished (ticking 5000 1) 1000 86401000
              eq_refl eq_refl eq_refl eq_refl eq_refl)
    as (j & Hj & Hid & _ & _ & _ & Hc & He & _).
  exists j. repeat split; assumption.
Defined.

(** C7, the claim as stated fails: the constructor stores the overrides
    it is given, also when [expiresAt] precedes [createdAt]; the same
    happens through [fromJSON]. *)
Lemma constructor_accepts_expiry_before_creation :
  createdAt (fst (new_Session backwards (ticking 0 1))) = ValidDate 2000 /\
  expiresAt (fst (new_Session backwards (ticking 0 1))) = ValidDate 1000 /\
  Date_gt (expiresAt (fst (new_Session backwards (ticking 0 1))))
          (createdAt (fst (new_Session backwards (ticking 0 1)))) = false.
Proof. repeat split. Qed.

(** C7, amended: a session constructed without [createdAt] and [expiresAt]
    overrides, under a clock that does not run backwards between the two
    readings of the constructor, has [expiresAt > createdAt]. *)
Theorem default_expiry_after_creation (data : SessionData) (w : World) :
  d_createdAt data = None ->
  d_expiresAt data = None ->
  clock w (clock_reads w) <= clock w (S (clock_reads w)) ->
  in_time_range (clock w (S (clock_reads w)) + defaultLifetimeMs) = true ->
  Date_gt (expiresAt (fst (new_Session data w)))
          (createdAt (fst (new_Session data w))) = true.
Proof.
  intros Hc He Hmono Hr.
  destruct (new_Session_default_timestamps data w Hc He) as [-> ->].
  unfold Date_of_number. rewrite Hr. simpl.
  apply Z.ltb_lt. rewrite defaultLifetimeMs_value. lia.
Qed.

Lemma default_expiry_after_creation_witness :
  (clock (ticking 1000 1) 0 <= clock (ticking 1000 1) 1 /\
   in_time_range (clock (ticking 1000 1) 1 + defaultLifetimeMs) = true) /\
  Date_gt (expiresAt (fst (new_Session (no_overrides "a.go" "go") (ticking 1000 1))))
          (createdAt (fst (new_Session (no_overrides "a.go" "go") (ticking 1000 1)))) = true.
Proof.
  split; [split; [discriminate | reflexivity]|].
  refine (default_expiry_after_creation (no_overrides "a.go" "go") (ticking 1000 1)
            eq_refl eq_refl _ eq_refl).
  discriminate.
Defined.

End SessionProperties.

(** ** Properties of the configuration loader *)

Section ConfigProperties.
Import Js AppConfig Spec Examples.

Example parseInt10_examples :
  parseInt10 "24" = Num 24 /\ parseInt10 "  -5" = Num (-5) /\
  parseInt10 "0" = Num 0 /\ parseInt10 "12px" = Num 12 /\
  parseInt10 "abc" = NaN /\ parseInt10 "-" = NaN.
Proof. repeat split. Qed.

(** A value [parseInt] reads a number from is not the empty string. *)
Lemma parseInt10_Num_truthy (v : string) (n : Z) :
  parseInt10 v = Num n -> truthy v = true.
Proof. destruct v; [discriminate | reflexivity]. Qed.

Lemma getEnvNumber_unset (env : gmap string string) (key : string) (d : Number) :
  env !! key = None -> getEnvNumber env key d = d.
Proof. intros H. unfold getEnvNumber. rewrite H. reflexivity. Qed.

(** An empty value counts as unset. *)
Lemma getEnvNumber_empty (env : gmap string string) (key : string) (d : Number) :
  env !! key = Some "" -> getEnvNumber env key d = d.
Proof. intros H. unfold getEnvNumber. rewrite H. reflexivity. Qed.

Lemma getEnvNumber_parsed (env : gmap string string) (key v : string) (d : Number) (n : Z) :
  env !! key = Some v -> parseInt10 v = Num n -> getEnvNumber env key d = Num n.
Proof.
  intros H Hp. unfold getEnvNumber.
  rewrite H, (parseInt10_Num_truthy v n Hp). exact Hp.
Qed.

(** C8, the claim as stated fails: with [SESSION_TIMEOUT_HOURS=-5] the
    loader yields [sessionTimeoutHours = -5]; the value is not positive and
    nothing rejects it. *)
Lemma config_accepts_negative_timeout :
  negative_timeout_env !! "SESSION_TIMEOUT_HOURS" = Some "-5" /\
  sessionTimeoutHours (appConfig negative_timeout_env) = Num (-5) /\
  positive_setting (sessionTimeoutHours (appConfig negative_timeout_env)) = false.
Proof. vm_compute. repeat split. Qed.

(** C8, amended: [sessionTimeoutHours] is 24 and
    [sessionCleanupIntervalHours] is 1 when their variables are unset; a
    value that is set and parses as an integer is taken as it is, whatever
    its sign. *)
Theorem session_settings_defaults_and_parse (env : gmap string string) :
  (env !! "SESSION_TIMEOUT_HOURS" = None ->
   sessionTimeoutHours (appConfig env) = Num 24) /\
  (env !! "SESSION_CLEANUP_INTERVAL_HOURS" = None ->
   sessionCleanupIntervalHours (appConfig env) = Num 1) /\
  (forall (v : string) (n : Z),
      env !! "SESSION_TIMEOUT_HOURS" = Some v -> parseInt10 v = Num n ->
      sessionTimeoutHours (appConfig env) = Num n) /\
  (forall (v : string) (n : Z),
      env !! "SESSION_CLEANUP_INTERVAL_HOURS" = Some v -> parseInt10 v = Num n ->
      sessionCleanupIntervalHours (appConfig env) = Num n).
Proof.
  unfold appConfig; simpl. repeat split.
  - apply getEnvNumber_unset.
  - apply getEnvNumber_unset.
  - intros v n. apply getEnvNumber_parsed.
  - intros v n. apply getEnvNumber_parsed.
Qed.

Lemma session_settings_defaults_and_parse_witness :
  (negative_timeout_env !! "SESSION_CLEANUP_INTERVAL_HOURS" = None /\
   negative_timeout_env !! "SESSION_TIMEOUT_HOURS" = Some "-5" /\
   parseInt10 "-5" = Num (-5)) /\
  sessionCleanupIntervalHours (appConfig negative_timeout_env) = Num 1 /\
  sessionTimeoutHours (appConfig negative_timeout_env) = Num (-5).
Proof.
  assert (Hc : negative_timeout_env !! "SESSION_CLEANUP_INTERVAL_HOURS" = None)
    by (vm_compute; reflexivity).
  assert (Ht : negative_timeout_env !! "SESSION_TIMEOUT_HOURS" = Some "-5")
    by (vm_compute; reflexivity).
  destruct (session_settings_defaults_and_parse negative_timeout_env)
    as (_ & Hcleanup & Htimeout & _).
  split; [repeat split; assumption|].
  split; [exact (Hcleanup Hc) | exact (Htimeout "-5" (-5) Ht eq_refl)].
Defined.

End ConfigProperties.

(** ** Further properties of the session record *)

Section SessionBehaviour.
Import Js Sys SessionModel Examples MoreExamples.

(** How the constructor uses the world: the identifier it takes, and the
    uuids it draws and the clock readings it takes, one for each default it
    has to fill in. *)
Lemma new_Session_world (data : SessionData) (w : World) :
  sessionID (fst (new_Session data w)) =
    (if truthy_opt (d_sessionID data)
     then default "" (d_sessionID data)
     else uuid_source w (uuids_drawn w)) /\
  clock (snd (new_Session data w)) = clock w /\
  uuid_source (snd (new_Session data w)) = uuid_source w /\
  uuids_drawn (snd (new_Session data w)) =
    (uuids_drawn w + if truthy_opt (d_sessionID data) then 0 else 1)%nat /\
  clock_reads (snd (new_Session data w)) =
    (clock_reads w
     + match d_createdAt data with Some _ => 0 | None => 1 end
     + match d_expiresAt data with Some _ => 0 | None => 1 end)%nat.
Proof.
  unfold new_Session.
  destruct (d_sessionID data) as [id|]; [destruct id as [|c id]|];
    destruct (d_createdAt data), (d_expiresAt data); simpl;
    repeat split; lia.
Qed.

(** X1: [toJSON] returns the six-key object exactly when both timestamps
    are valid dates, and throws a RangeError when either is the Invalid
    Date. *)
Theorem toJSON_returns_or_throws (s : Session) :
  (exists c e : Z,
      createdAt s = ValidDate c /\ expiresAt s = ValidDate e /\
      toJSON s = Returns {| j_sessionID := Some (sessionID s);
                            j_regSessionI := None;
                            j_fileName := fileName s;
                            j_language := language s;
                            j_state := Some (state s);
                            j_createdAt := Some (Iso c);
                            j_expiresAt := Some (Iso e);
                            j_filePath := None;
                            j_analysisResult := None |}) \/
  ((createdAt s = InvalidDate \/ expiresAt s = InvalidDate) /\
   toJSON s = Throws "RangeError").
Proof.
  unfold toJSON.
  destruct (createdAt s) as [c|], (expiresAt s) as [e|]; simpl.
  - left. exists c, e. repeat split.
  - right. split; [right|]; reflexivity.
  - right. split; [left|]; reflexivity.
  - right. split; [left|]; reflexivity.
Qed.

(** What [fromJSON] hands to the constructor always has both timestamps. *)
Lemma fromJSON_world (json : SessionJSON) (w : World) :
  createdAt (fst (fromJSON json w)) = Date_of_property (j_createdAt json) /\
  expiresAt (fst (fromJSON json w)) = Date_of_property (j_expiresAt json).
Proof.
  unfold fromJSON. split.
  - apply new_Session_createdAt_override. reflexivity.
  - apply new_Session_expiresAt_override. reflexivity.
Qed.

(** X2: [fromJSON] takes both timestamps from the JSON object and never
    reads the clock: a missing or unparseable timestamp becomes the Invalid
    Date, not the current time or the 24-hour default. *)
Theorem fromJSON_timestamps_from_json (json : SessionJSON) (w : World) :
  createdAt (fst (fromJSON json w)) = Date_of_property (j_createdAt json) /\
  expiresAt (fst (fromJSON json w)) = Date_of_property (j_expiresAt json) /\
  clock_reads (snd (fromJSON json w)) = clock_reads w.
Proof.
  destruct (fromJSON_world json w) as [Hc He].
  split; [exact Hc|]. split; [exact He|].
  unfold fromJSON.
  match goal with
  | |- clock_reads (snd (new_Session ?d w)) = _ =>
      destruct (new_Session_world d w) as (_ & _ & _ & _ & Hr)
  end.
  rewrite Hr. simpl. lia.
Qed.

(** X3: a session read by [fromJSON] from an object that lacks [createdAt]
    or [expiresAt] cannot be written back: [toJSON] throws a RangeError. *)
Theorem fromJSON_undated_then_toJSON_throws (json : SessionJSON) (w : World) :
  j_createdAt json = None \/ j_expiresAt json = None ->
  toJSON (fst (fromJSON json w)) = Throws "RangeError".
Proof.
  intros H. apply toJSON_throws_on_invalid_date.
  destruct (fromJSON_world json w) as (Hc & He).
  rewrite Hc, He. destruct H as [H|H]; rewrite H; [left|right]; reflexivity.
Qed.

Lemma fromJSON_undated_then_toJSON_throws_witness :
  (j_createdAt undated_json = None \/ j_expiresAt undated_json = None) /\
  toJSON (fst (fromJSON undated_json (ticking 5000 1))) = Throws "RangeError".
Proof.
  split; [left; reflexivity|].
  apply (fromJSON_undated_then_toJSON_throws undated_json (ticking 5000 1)).
  left; reflexivity.
Defined.

(** X4: a session read by [fromJSON] from an object whose [expiresAt] is
    missing or unparseable never expires: [isExpired] answers [false] at
    every time. *)
Theorem fromJSON_without_expiry_never_expires
    (json : SessionJSON) (w w' : World) :
  j_expiresAt json = None \/ (exists t, j_expiresAt json = Some (Unparseable t)) ->
  fst (isExpired (fst (fromJSON json w)) w') = false.
Proof.
  intros H.
  destruct (fromJSON_world json w) as (_ & He).
  unfold isExpired, Date_new, Date_now, bind, ret; simpl. rewrite He.
  destruct H as [H|[t H]]; rewrite H; reflexivity.
Qed.

Lemma fromJSON_without_expiry_never_expires_witness :
  (j_expiresAt undated_json = None \/
   (exists t, j_expiresAt undated_json = Some (Unparseable t))) /\
  fst (isExpired (fst (fromJSON undated_json (ticking 5000 1)))
                 (ticking 9000000000000 1)) = false.
Proof.
  split; [left; reflexivity|].
  apply (fromJSON_without_expiry_never_expires undated_json
           (ticking 5000 1) (ticking 9000000000000 1)).
  left; reflexivity.
Defined.

(** X5: the constructor draws one uuid exactly when [data.sessionID] is
    missing or empty, and reads the clock once for each of [createdAt] and
    [expiresAt] that is missing; a non-empty [sessionID] is kept. *)
Theorem constructor_effects (data : SessionData) (w : World) :
  sessionID (fst (new_Session data w)) =
    (if truthy_opt (d_sessionID data)
     then default "" (d_sessionID data)
     else uuid_source w (uuids_drawn w)) /\
  uuids_drawn (snd (new_Session data w)) =
    (uuids_drawn w + if truthy_opt (d_sessionID data) then 0 else 1)%nat /\
  clock_reads (snd (new_Session data w)) =
    (clock_reads w
     + match d_createdAt data with Some _ => 0 | None => 1 end
     + match d_expiresAt data with Some _ => 0 | None => 1 end)%nat.
Proof.
  destruct (new_Session_world data w) as (Hid & _ & _ & Hu & Hr).
  repeat split; assumption.
Qed.

(** X6: as long as [uuidv4] yields non-empty strings, every constructed
    session has a non-empty [sessionID], whatever the input. *)
Theorem constructed_sessionID_non_empty (data : SessionData) (w : World) :
  (forall n, truthy (uuid_source w n) = true) ->
  truthy (sessionID (fst (new_Session data w))) = true.
Proof.
  intros Hu. destruct (new_Session_world data w) as (Hid & _). rewrite Hid.
  destruct (d_sessionID data) as [id|]; simpl; [|apply Hu].
  destruct (truthy id) eqn:Ht; [exact Ht | apply Hu].
Qed.

Lemma constructed_sessionID_non_empty_witness :
  (forall n, truthy (uuid_source (ticking 1000 1) n) = true) /\
  truthy (sessionID (fst (new_Session (no_overrides "a.go" "go") (ticking 1000 1)))) = true.
Proof.
  split; [intros n; reflexivity|].
  apply (constructed_sessionID_non_empty (no_overrides "a.go" "go") (ticking 1000 1)).
  intros n; reflexivity.
Defined.

(** X7: on a constructed session, [validate] answers [true] exactly when
    [fileName] is non-empty and [language] is empty or missing (its last
    conjunct is [!this.language]). *)
Theorem validate_on_constructed (data : SessionData) (w : World) :
  (forall n, truthy (uuid_source w n) = true) ->
  validate (fst (new_Session data w)) =
  truthy_opt (d_fileName data) && negb (truthy_opt (d_language data)).
Proof.
  intros Hu. unfold validate.
  rewrite new_Session_fileName, new_Session_language.
  destruct (new_Session_world data w) as (Hid & _). rewrite Hid.
  destruct (d_sessionID data) as [id|]; simpl; [|rewrite Hu; reflexivity].
  destruct (truthy id) eqn:Ht; [rewrite Ht | rewrite Hu]; reflexivity.
Qed.

Lemma validate_on_constructed_witness :
  (forall n, truthy (uuid_source (ticking 1000 1) n) = true) /\
  validate (fst (new_Session (no_overrides "a.go" "go") (ticking 1000 1))) = false.
Proof.
  split; [intros n; reflexivity|].
  apply (validate_on_constructed (no_overrides "a.go" "go") (ticking 1000 1)).
  intros n; reflexivity.
Defined.

(** X8: of two successive [updateState] calls only the last one counts,
    and setting the state a session already has changes nothing. *)
Theorem updateState_last_write_wins (s : Session) (a b : SessionState) :
  updateState b (updateState a s) = updateState b s /\
  updateState (state s) s = s.
Proof. destruct s; split; reflexivity. Qed.

(** X9: [toJSON] after [updateState] is [toJSON] of the original session
    with the [state] key replaced; whether it throws is not affected. *)
Theorem toJSON_after_updateState (s : Session) (newState : SessionState) :
  toJSON (updateState newState s) =
  match toJSON s with
  | Returns j =>
      Returns {| j_sessionID := j_sessionID j;
                 j_regSessionI := j_regSessionI j;
                 j_fileName := j_fileName j;
                 j_language := j_language j;
                 j_state := Some newState;
                 j_createdAt := j_createdAt j;
                 j_expiresAt := j_expiresAt j;
                 j_filePath := j_filePath j;
                 j_analysisResult := j_analysisResult j |}
  | Throws e => Throws e
  end.
Proof.
  unfold toJSON; simpl.
  destruct (toISOString (createdAt s)); [|reflexivity].
  destruct (toISOString (expiresAt s)); reflexivity.
Qed.

(** X10: expiry is permanent under a clock that does not run backwards:
    once [isExpired] has answered [true], it answers [true] at every later
    reading. *)
Theorem isExpired_stays_expired (s : Session) (w w' : World) :
  fst (isExpired s w) = true ->
  current_time w <= current_time w' ->
  fst (isExpired s w') = true.
Proof.
  unfold isExpired, Date_new, Date_now, bind, ret; simpl.
  destruct (expiresAt s) as [e|]; simpl; [|discriminate].
  intros H Hle. apply Z.ltb_lt. apply Z.ltb_lt in H. lia.
Qed.

Lemma isExpired_stays_expired_witness :
  (fst (isExpired finished (ticking 86401001 0)) = true /\
   current_time (ticking 86401001 0) <= current_time (ticking 90000000 5)) /\
  fst (isExpired finished (ticking 90000000 5)) = true.
Proof.
  split; [split; [reflexivity | discriminate]|].
  refine (isExpired_stays_expired finished (ticking 86401001 0) (ticking 90000000 5)
            eq_refl _).
  discriminate.
Defined.

(** X11: a session created with default timestamps and checked right
    away is expired exactly when the clock reading of the check is more
    than 24 hours after the reading [expiresAt] was computed from. *)
Theorem fresh_session_expiry (data : SessionData) (w : World) :
  d_createdAt data = None ->
  d_expiresAt data = None ->
  in_time_range (clock w (S (clock_reads w)) + defaultLifetimeMs) = true ->
  fst (isExpired (fst (new_Session data w)) (snd (new_Session data w))) =
  (clock w (S (clock_reads w)) + 86400000 <? clock w (S (S (clock_reads w)))).
Proof.
  intros Hc He Hr.
  destruct (new_Session_default_timestamps data w Hc He) as [_ Hex].
  destruct (new_Session_world data w) as (_ & Hk & _ & _ & Hn).
  rewrite Hc, He in Hn.
  unfold isExpired, Date_new, Date_now, bind, ret, current_time; simpl.
  rewrite Hex, Hk, Hn. unfold Date_of_number. rewrite Hr. simpl.
  rewrite defaultLifetimeMs_value.
  replace (clock_reads w + 1 + 1)%nat with (S (S (clock_reads w))) by lia.
  reflexivity.
Qed.

Lemma fresh_session_expiry_witness :
  in_time_range (clock (ticking 1000 1) 1 + defaultLifetimeMs) = true /\
  fst (isExpired (fst (new_Session (no_overrides "a.go" "go") (ticking 1000 1)))
                 (snd (new_Session (no_overrides "a.go" "go") (ticking 1000 1)))) = false.
Proof.
  split; [reflexivity|].
  exact (fresh_session_expiry (no_overrides "a.go" "go") (ticking 1000 1)
           eq_refl eq_refl eq_refl).
Defined.

(** X12: [toJSON] after [fromJSON]: for a JSON object with a non-empty
    [sessionID], a [state] and two ISO timestamps in the range of [Date],
    the six keys [toJSON] writes come back as they were, and the keys
    [regSessionI], [filePath] and [analysisResult] are dropped. *)
Theorem toJSON_after_fromJSON (json : SessionJSON) (w : World)
    (id : string) (st : SessionState) (c e : Z) :
  j_sessionID json = Some id -> truthy id = true ->
  j_state json = Some st ->
  j_createdAt json = Some (Iso c) -> in_time_range c = true ->
  j_expiresAt json = Some (Iso e) -> in_time_range e = true ->
  toJSON (fst (fromJSON json w)) =
  Returns {| j_sessionID := j_sessionID json;
             j_regSessionI := None;
             j_fileName := j_fileName json;
             j_language := j_language json;
             j_state := j_state json;
             j_createdAt := j_createdAt json;
             j_expiresAt := j_expiresAt json;
             j_filePath := None;
             j_analysisResult := None |}.
Proof.
  intros Hid Ht Hst Hc Hcr He Her.
  unfold fromJSON, new_Session. rewrite Hid, Hst, Hc, He. simpl.
  rewrite Ht. unfold Date_of_number. rewrite Hcr, Her. reflexivity.
Qed.

Lemma toJSON_after_fromJSON_witness :
  (truthy "s-4" = true /\ in_time_range 1000 = true /\ in_time_range 86401000 = true) /\
  toJSON (fst (fromJSON full_json (ticking 5000 1))) =
  Returns {| j_sessionID := Some "s-4";
             j_regSessionI := None;
             j_fileName := Some "a.go";
             j_language := Some "go";
             j_state := Some ANALYZING;
             j_createdAt := Some (Iso 1000);
             j_expiresAt := Some (Iso 86401000);
             j_filePath := None;
             j_analysisResult := None |}.
Proof.
  split; [repeat split|].
  exact (toJSON_after_fromJSON full_json (ticking 5000 1) "s-4" ANALYZING 1000 86401000
           eq_refl eq_refl eq_refl eq_refl eq_refl eq_refl eq_refl).
Defined.

End SessionBehaviour.

(** ** Further properties of the configuration loader *)

Section ConfigBehaviour.
Import Js JsText AppConfigAll MoreExamples.

Ltac ascii_cases c := destruct c as [[] [] [] [] [] [] [] []].

(** The session settings of the full record are those of [appConfig]. *)
Lemma appConfig_all_session (env : gmap string string) :
  sessionTimeoutHours (appConfig_all env) =
    AppConfig.sessionTimeoutHours (AppConfig.appConfig env) /\
  sessionCleanupIntervalHours (appConfig_all env) =
    AppConfig.sessionCleanupIntervalHours (AppConfig.appConfig env) /\
  sessionDirectory (appConfig_all env) =
    AppConfig.sessionDirectory (AppConfig.appConfig env).
Proof. repeat split. Qed.

Lemma getEnvString_truthy (env : gmap string string) (key d : string) :
  truthy d = true -> truthy (AppConfig.getEnvString env key d) = true.
Proof.
  intros Hd. unfold AppConfig.getEnvString.
  destruct (env !! key) as [v|]; [|exact Hd].
  destruct (truthy v) eqn:Hv; [exact Hv | exact Hd].
Qed.

(** X13: [getEnvString] never returns the empty string when its default is
    not empty: an empty value of the variable falls back to the default. *)
Theorem getEnvString_non_empty (env : gmap string string) (key d : string) :
  d <> "" -> AppConfig.getEnvString env key d <> "".
Proof.
  intros Hd.
  assert (Ht : truthy (AppConfig.getEnvString env key d) = true).
  { apply getEnvString_truthy. destruct d; [contradiction | reflexivity]. }
  intros Heq. rewrite Heq in Ht. discriminate.
Qed.

Lemma getEnvString_non_empty_witness :
  "./logs" <> "" /\
  AppConfig.getEnvString (<["LOG_DIRECTORY" := ""]> ∅) "LOG_DIRECTORY" "./logs" <> "".
Proof.
  split; [discriminate|].
  apply (getEnvString_non_empty (<["LOG_DIRECTORY" := ""]> ∅) "LOG_DIRECTORY" "./logs").
  discriminate.
Defined.

(** X14: a variable set to the empty string counts as unset for the three
    readers: each returns its default. *)
Theorem empty_value_is_unset (env : gmap string string) (key : string)
    (ds : string) (dn : Number) (db : bool) :
  env !! key = Some "" ->
  AppConfig.getEnvString env key ds = ds /\
  AppConfig.getEnvNumber env key dn = dn /\
  getEnvBoolean env key db = db.
Proof.
  intros H. unfold AppConfig.getEnvString, AppConfig.getEnvNumber, getEnvBoolean.
  rewrite H. repeat split.
Qed.

Lemma empty_value_is_unset_witness :
  (<["PORT" := ""]> (∅ : gmap string string)) !! "PORT" = Some "" /\
  AppConfig.getEnvNumber (<["PORT" := ""]> ∅) "PORT" (Num 3000) = Num 3000.
Proof.
  assert (H : (<["PORT" := ""]> (∅ : gmap string string)) !! "PORT" = Some "")
    by (vm_compute; reflexivity).
  split; [exact H|].
  destruct (empty_value_is_unset (<["PORT" := ""]> ∅) "PORT" "" (Num 3000) true H)
    as (_ & Hn & _).
  exact Hn.
Defined.








(** The characters [toLowerCase] maps to a letter of [true]. *)
Lemma lower_char_t (c : ascii) :
  lower_char c = "t"%char <-> c = "t"%char \/ c = "T"%char.
Proof.
  split.
  - ascii_cases c; vm_compute; intros H; try discriminate H; auto.
  - intros [-> | ->]; reflexivity.
Qed.

Lemma lower_char_r (c : ascii) :
  lower_char c = "r"%char <-> c = "r"%char \/ c = "R"%char.
Proof.
  split.
  - ascii_cases c; vm_compute; intros H; try discriminate H; auto.
  - intros [-> | ->]; reflexivity.
Qed.

Lemma lower_char_u (c : ascii) :
  lower_char c = "u"%char <-> c = "u"%char \/ c = "U"%char.
Proof.
  split.
  - ascii_cases c; vm_compute; intros H; try discriminate H; auto.
  - intros [-> | ->]; reflexivity.
Qed.

Lemma lower_char_e (c : ascii) :
  lower_char c = "e"%char <-> c = "e"%char \/ c = "E"%char.
Proof.
  split.
  - ascii_cases c; vm_compute; intros H; try discriminate H; auto.
  - intros [-> | ->]; reflexivity.
Qed.

Lemma toLowerCase_true (v : string) :
  toLowerCase v = "true" <->
  exists a b c d : ascii,
    v = String a (String b (String c (String d EmptyString))) /\
    (a = "t" \/ a = "T")%char /\ (b = "r" \/ b = "R")%char /\
    (c = "u" \/ c = "U")%char /\ (d = "e" \/ d = "E")%char.
Proof.
  split.
  - destruct v as [|a [|b [|c [|d [|x v]]]]]; simpl; try discriminate.
    intros H. injection H as Ha Hb Hc Hd.
    exists a, b, c, d. split; [reflexivity|].
    rewrite <- lower_char_t, <- lower_char_r, <- lower_char_u, <- lower_char_e.
    auto.
  - intros (a & b & c & d & -> & Ha & Hb & Hc & Hd). simpl.
    apply lower_char_t in Ha. apply lower_char_r in Hb.
    apply lower_char_u in Hc. apply lower_char_e in Hd.
    rewrite Ha, Hb, Hc, Hd. reflexivity.
Qed.

(** X17: when the variable is set to a non-empty value, [getEnvBoolean]
    ignores its default and answers [true] only for the four letters of
    [true] in any mix of upper and lower case; every other value, such as
    [1] or [yes], gives [false]. *)
Theorem getEnvBoolean_true_iff (env : gmap string string) (key v : string)
    (defaultValue : bool) :
  env !! key = Some v -> v <> "" ->
  (getEnvBoolean env key defaultValue = true <->
   exists a b c d : ascii,
     v = String a (String b (String c (String d EmptyString))) /\
     (a = "t" \/ a = "T")%char /\ (b = "r" \/ b = "R")%char /\
     (c = "u" \/ c = "U")%char /\ (d = "e" \/ d = "E")%char).
Proof.
  intros H Hne. unfold getEnvBoolean. rewrite H.
  destruct v as [|x v]; [contradiction|]. simpl truthy. cbv iota.
  rewrite <- toLowerCase_true. apply String.eqb_eq.
Qed.

Lemma getEnvBoolean_true_iff_witness :
  ((<["LOG_TO_FILE" := "True"]> (∅ : gmap string string)) !! "LOG_TO_FILE" = Some "True" /\
   "True" <> "") /\
  getEnvBoolean (<["LOG_TO_FILE" := "True"]> ∅) "LOG_TO_FILE" false = true.
Proof.
  assert (H : (<["LOG_TO_FILE" := "True"]> (∅ : gmap string string)) !! "LOG_TO_FILE"
              = Some "True") by (vm_compute; reflexivity).
  split; [split; [exact H | discriminate]|].
  apply (getEnvBoolean_true_iff (<["LOG_TO_FILE" := "True"]> ∅) "LOG_TO_FILE" "True" false
           H ltac:(discriminate)).
  exists "T"%char, "r"%char, "u"%char, "e"%char. repeat split; auto.
Defined.

(** X18: [ragBaseUrl] is the value of [RAG_BASE_URL], and the empty string
    when the variable is unset: the default handed to [getEnvString] is
    itself read from the same variable. *)
Theorem ragBaseUrl_value (env : gmap string string) :
  ragBaseUrl (appConfig_all env) = default "" (env !! "RAG_BASE_URL").
Proof.
  unfold appConfig_all, ragBaseUrl, AppConfig.getEnvString, RAG_BASE_URL.
  destruct (env !! "RAG_BASE_URL") as [v|]; [|reflexivity].
  destruct v; reflexivity.
Qed.

(** [split] gives one piece more than there are separators. *)
Lemma split_not_nil (sep : ascii) (s : string) : split sep s <> nil.
Proof.
  destruct s as [|c s]; simpl; [discriminate|].
  destruct (Ascii.eqb c sep); [discriminate|].
  destruct (split sep s); discriminate.
Qed.

Lemma split_length (sep : ascii) (s : string) :
  length (split sep s) = S (occurrences sep s).
Proof.
  induction s as [|c s IH]; simpl; [reflexivity|].
  destruct (Ascii.eqb c sep); simpl.
  - rewrite IH. reflexivity.
  - destruct (split sep s) as [|piece pieces] eqn:Hs.
    + exfalso. exact (split_not_nil sep s Hs).
    + simpl in *. exact IH.
Qed.

(** No piece contains the separator. *)
Lemma split_pieces_free (sep : ascii) (s x : string) :
  In x (split sep s) -> occurrences sep x = 0%nat.
Proof.
  revert x. induction s as [|c s IH]; simpl; intros x Hin.
  - destruct Hin as [<- | []]. reflexivity.
  - destruct (Ascii.eqb c sep) eqn:Hc.
    + destruct Hin as [<- | Hin]; [reflexivity | apply IH, Hin].
    + destruct (split sep s) as [|piece pieces] eqn:Hs.
      * destruct Hin as [<- | []]. simpl. rewrite Hc. reflexivity.
      * destruct Hin as [<- | Hin].
        -- simpl. rewrite Hc. simpl. apply IH. left. reflexivity.
        -- apply IH. right. exact Hin.
Qed.

(** Trimming only removes characters. *)
Lemma occurrences_skip_white_space (c : ascii) (s : string) :
  (occurrences c (skip_white_space s) <= occurrences c s)%nat.
Proof.
  induction s as [|a s IH]; simpl; [lia|].
  destruct (is_white_space a); simpl; lia.
Qed.

Lemma occurrences_trimEnd (c : ascii) (s : string) :
  (occurrences c (trimEnd s) <= occurrences c s)%nat.
Proof.
  induction s as [|a s IH]; simpl; [lia|].
  destruct (trimEnd s) as [|k kept]; simpl in *.
  - destruct (is_white_space a); simpl; lia.
  - lia.
Qed.

(** What is left after [trimEnd] keeps its first character and does not
    end with white space. *)
Lemma trimEnd_head (s : string) (c : ascii) (r : string) :
  trimEnd s = String c r -> exists s', s = String c s'.
Proof.
  destruct s as [|a s]; simpl; [discriminate|].
  destruct (trimEnd s) as [|k kept].
  - destruct (is_white_space a); [discriminate|].
    intros H. injection H as -> _. eauto.
  - intros H. injection H as -> _. eauto.
Qed.

Lemma trimEnd_last (s y : string) (c : ascii) :
  trimEnd s = y ++ String c EmptyString -> is_white_space c = false.
Proof.
  revert y. induction s as [|a s IH]; intros y; simpl.
  - destruct y; discriminate.
  - destruct (trimEnd s) as [|k kept] eqn:Ht.
    + destruct (is_white_space a) eqn:Hw.
      * destruct y; discriminate.
      * destruct y as [|b [|b' y]]; simpl; intros H; try discriminate H.
        injection H as ->. exact Hw.
    + destruct y as [|b y]; simpl; intros H.
      * discriminate H.
      * injection H as _ H. apply (IH y). exact H.
Qed.

Lemma skip_white_space_head (s : string) (c : ascii) (r : string) :
  skip_white_space s = String c r -> is_white_space c = false.
Proof.
  induction s as [|a s IH]; simpl; [discriminate|].
  destruct (is_white_space a) eqn:Hw; [exact IH|].
  intros H. injection H as -> _. exact Hw.
Qed.

(** With no variable set the list is the six extensions of the source. *)
Example allowedExtensions_default :
  allowedExtensions (appConfig_all ∅) =
  ".py" :: ".js" :: ".java" :: ".ts" :: ".jsx" :: ".tsx" :: nil.
Proof. vm_compute. reflexivity. Qed.

(** X19: [allowedExtensions] has one entry more than there are commas in
    the configured text, so it is never empty; an empty piece, as after a
    trailing comma, is an entry. *)
Theorem allowedExtensions_count (env : gmap string string) :
  length (allowedExtensions (appConfig_all env)) =
    S (occurrences ","
         (AppConfig.getEnvString env "ALLOWED_EXTENSIONS" ".py,.js,.java,.ts,.jsx,.tsx")) /\
  allowedExtensions (appConfig_all env) <> nil.
Proof.
  assert (Hlen : length (allowedExtensions (appConfig_all env)) =
    S (occurrences ","
         (AppConfig.getEnvString env "ALLOWED_EXTENSIONS" ".py,.js,.java,.ts,.jsx,.tsx"))).
  { unfold appConfig_all, allowedExtensions.
    rewrite length_map. apply split_length. }
  split; [exact Hlen|].
  intros Hnil. rewrite Hnil in Hlen. discriminate Hlen.
Qed.

(** X20: no entry of [allowedExtensions] contains a comma, and none
    starts or ends with white space. *)
Theorem allowedExtensions_entries (env : gmap string string) (x : string) :
  In x (allowedExtensions (appConfig_all env)) ->
  occurrences "," x = 0%nat /\
  (forall c r, x = String c r -> is_white_space c = false) /\
  (forall y c, x = y ++ String c EmptyString -> is_white_space c = false).
Proof.
  unfold appConfig_all, allowedExtensions. intros Hin.
  apply in_map_iff in Hin as (piece & <- & Hin).
  apply split_pieces_free in Hin.
  split; [|split].
  - unfold trim.
    pose proof (occurrences_trimEnd "," (skip_white_space piece)).
    pose proof (occurrences_skip_white_space "," piece). lia.
  - intros c r H. unfold trim in H.
    apply trimEnd_head in H as [s' H].
    apply (skip_white_space_head piece c s'). exact H.
  - intros y c H. unfold trim in H. apply (trimEnd_last (skip_white_space piece) y c). exact H.
Qed.

Lemma allowedExtensions_entries_witness :
  In ".js"
     (allowedExtensions (appConfig_all (<["ALLOWED_EXTENSIONS" := ".py, .js ,.go"]> ∅))) /\
  occurrences "," ".js" = 0%nat.
Proof.
  assert (Hin : In ".js"
     (allowedExtensions (appConfig_all (<["ALLOWED_EXTENSIONS" := ".py, .js ,.go"]> ∅)))).
  { vm_compute. right. left. reflexivity. }
  split; [exact Hin|].
  destruct (allowedExtensions_entries
              (<["ALLOWED_EXTENSIONS" := ".py, .js ,.go"]> ∅) ".js" Hin) as [H _].
  exact H.
Defined.

End ConfigBehaviour.

(** ** Properties of the logger and of the error middleware *)

Section LoggerBehaviour.
Import Js JsText AppConfigAll Logger Server MoreExamples.

Variable path_resolve : string -> string.
Variable path_join : string -> string -> string.
Variable session_pictograph : SessionOperation -> string.
Variable rag_pictograph : string.
Variable performance_pictograph : string.

(** X21: the two fallbacks of the logger module are never taken:
    [appConfig.logLevel] and [appConfig.logDirectory] are never empty, so
    the logger level is the configured level and the log directory is the
    configured directory, resolved. *)
Theorem logger_fallbacks_unused (env : gmap string string) :
  opt_level (loggerOptions path_resolve path_join env) = logLevel (appConfig_all env) /\
  Logger.logDirectory path_resolve env =
    path_resolve (AppConfigAll.logDirectory (appConfig_all env)).
Proof.
  unfold loggerOptions, Logger.logDirectory, appConfig_all; simpl.
  rewrite !getEnvString_truthy by reflexivity. split; reflexivity.
Qed.

(** X22: the logger has no transport exactly when both [logToConsole]
    and [logToFile] are off, and it has an exception handler and a
    rejection handler exactly when [logToFile] is on. *)
Theorem logger_transports_present (env : gmap string string) :
  (opt_transports (loggerOptions path_resolve path_join env) = nil <->
   logToConsole (appConfig_all env) = false /\ logToFile (appConfig_all env) = false) /\
  (exceptionHandlers (loggerOptions path_resolve path_join env) <> nil <->
   logToFile (appConfig_all env) = true) /\
  (rejectionHandlers (loggerOptions path_resolve path_join env) <> nil <->
   logToFile (appConfig_all env) = true).
Proof.
  unfold loggerOptions, transports; simpl.
  destruct (getEnvBoolean env "LOG_TO_CONSOLE" true),
    (getEnvBoolean env "LOG_TO_FILE" true); simpl;
    intuition (try discriminate; try congruence).
Qed.

(** X23: [logRequest] makes one call and keeps the earlier ones; the level
    is [error] for a status code of 400 or more and [http] below, and the
    metadata is passed on untouched. *)
Theorem logRequest_call (method url : string) (statusCode duration : Z)
    (metadata : option (gmap string JsValue)) (calls : list LogCall) :
  exists call : LogCall,
    logRequest method url statusCode duration metadata calls
      = (calls ++ call :: nil)%list /\
    call_meta call = metadata /\
    (call_level call = "error" <-> 400 <= statusCode) /\
    (call_level call = "http" <-> statusCode < 400).
Proof.
  unfold logRequest. eexists. split; [reflexivity|]. simpl.
  split; [reflexivity|].
  destruct (Z.leb_spec 400 statusCode); split; split;
    intros; try reflexivity; try discriminate; lia.
Qed.

(** The keys of an object literal that ends with [...metadata]. *)
Lemma spread_over_lookup (metadata : option (gmap string JsValue))
    (written : gmap string JsValue) (k : string) :
  spread_over metadata written !! k =
  match metadata with
  | Some m => match m !! k with Some v => Some v | None => written !! k end
  | None => written !! k
  end.
Proof.
  unfold spread_over. destruct metadata as [m|]; [|reflexivity].
  rewrite lookup_union. destruct (m !! k), (written !! k); reflexivity.
Qed.

(** X24: [logPerformance] logs at level [warn] when the duration is more
    than 1000 ms and at level [debug] otherwise, 1000 ms included; the
    logged [duration] is the number followed by [ms], unless the caller's
    metadata has a [duration] key of its own, which then replaces it. *)
Theorem logPerformance_call (operation : string) (duration : Z)
    (metadata : option (gmap string JsValue)) (calls : list LogCall) :
  exists (call : LogCall) (logged : gmap string JsValue),
    logPerformance performance_pictograph operation duration metadata calls
      = (calls ++ call :: nil)%list /\
    call_meta call = Some logged /\
    (call_level call = "warn" <-> 1000 < duration) /\
    (call_level call = "debug" <-> duration <= 1000) /\
    logged !! "duration" =
      match metadata with
      | Some m =>
          match m !! "duration" with
          | Some v => Some v
          | None => Some (JsString (Number_toString duration ++ "ms"))
          end
      | None => Some (JsString (Number_toString duration ++ "ms"))
      end.
Proof.
  unfold logPerformance. eexists. eexists. split; [reflexivity|].
  split; [reflexivity|]. cbn [call_level].
  split; [|split].
  - destruct (Z.ltb_spec 1000 duration); split;
      intros; try reflexivity; try discriminate; lia.
  - destruct (Z.ltb_spec 1000 duration); split;
      intros; try reflexivity; try discriminate; lia.
  - rewrite spread_over_lookup, lookup_insert_eq.
    destruct metadata as [m|]; reflexivity.
Qed.

(** X25: in the metadata [logSession] logs, a key of the caller's
    metadata wins over the built-in keys: [sessionId] and [operation] hold
    the arguments of the call only when the caller's metadata does not set
    them, and every key of the caller's metadata is logged as given. *)
Theorem logSession_metadata (operation : SessionOperation) (sessionId : string)
    (metadata : gmap string JsValue) (calls : list LogCall) :
  exists (call : LogCall) (logged : gmap string JsValue),
    logSession session_pictograph operation sessionId (Some metadata) calls
      = (calls ++ call :: nil)%list /\
    call_level call = "info" /\
    call_meta call = Some logged /\
    (forall k v, metadata !! k = Some v -> logged !! k = Some v) /\
    (metadata !! "sessionId" = None ->
     logged !! "sessionId" = Some (JsString sessionId)) /\
    (metadata !! "operation" = None ->
     logged !! "operation" = Some (JsString (SessionOperation_text operation))) /\
    (forall k, k <> "sessionId" -> k <> "operation" ->
               logged !! k = metadata !! k).
Proof.
  unfold logSession. eexists. eexists. split; [reflexivity|].
  split; [reflexivity|]. split; [reflexivity|].
  repeat split.
  - intros k v H. rewrite spread_over_lookup, H. reflexivity.
  - intros H. rewrite spread_over_lookup, H.
    rewrite lookup_insert_ne by discriminate. apply lookup_insert_eq.
  - intros H. rewrite spread_over_lookup, H. apply lookup_insert_eq.
  - intros k Hs Ho. rewrite spread_over_lookup.
    destruct (metadata !! k); [reflexivity|].
    rewrite !lookup_insert_ne by congruence. apply lookup_empty.
Qed.

(** [logRag] logs at level [error] for the operation [error] and at
    level [info] for the three others. *)
Lemma logRag_level (operation : RagOperation) (sessionId : string)
    (metadata : option (gmap string JsValue)) (calls : list LogCall) :
  exists call : LogCall,
    logRag rag_pictograph operation sessionId metadata calls
      = (calls ++ call :: nil)%list /\
    (call_level call = "error" <-> operation = RagError) /\
    (call_level call = "info" <-> operation <> RagError).
Proof.
  unfold logRag. eexists. split; [reflexivity|].
  destruct operation; simpl; split; split;
    intros; try reflexivity; try discriminate; congruence.
Qed.

(** X26: the error middleware answers with status 500 and puts the
    error's message in the body exactly when [NODE_ENV] is [development],
    letter for letter. *)
Theorem errorHandler_message (env : gmap string string) (err : ErrorObject) :
  status (snd (errorHandler env err)) = 500 /\
  (body_message (snd (errorHandler env err)) = Some (err_message err) <->
   env !! "NODE_ENV" = Some "development") /\
  (body_message (snd (errorHandler env err)) = None <->
   env !! "NODE_ENV" <> Some "development").
Proof.
  unfold errorHandler; simpl. split; [reflexivity|].
  destruct (env !! "NODE_ENV") as [v|]; [|split; split; congruence].
  destruct (String.eqb_spec v "development") as [->|Hne];
    split; split; congruence.
Qed.

(** X27: when [NODE_ENV] is unset or empty, [appConfig.nodeEnv] is
    [development], yet the error middleware, which reads the variable
    itself, leaves the message out. *)
Theorem nodeEnv_default_not_seen_by_errorHandler
    (env : gmap string string) (err : ErrorObject) :
  default "" (env !! "NODE_ENV") = "" ->
  nodeEnv (appConfig_all env) = "development" /\
  body_message (snd (errorHandler env err)) = None.
Proof.
  unfold appConfig_all, nodeEnv, AppConfig.getEnvString, errorHandler; simpl.
  destruct (env !! "NODE_ENV") as [v|]; simpl; [|split; reflexivity].
  intros ->. split; reflexivity.
Qed.

End LoggerBehaviour.

Lemma logSession_metadata_witness :
  (<["note" := Js.JsString "retry"]> (∅ : gmap string Js.JsValue)) !! "sessionId" = None /\
  exists (call : Logger.LogCall) (logged : gmap string Js.JsValue),
    Logger.logSession (fun _ => "*") Logger.OpCreated "s-1"
       (Some (<["note" := Js.JsString "retry"]> ∅)) nil = call :: nil /\
    Logger.call_meta call = Some logged /\
    logged !! "sessionId" = Some (Js.JsString "s-1").
Proof.
  assert (H : (<["note" := Js.JsString "retry"]> (∅ : gmap string Js.JsValue))
                !! "sessionId" = None) by (vm_compute; reflexivity).
  split; [exact H|].
  destruct (logSession_metadata (fun _ => "*") Logger.OpCreated "s-1"
              (<["note" := Js.JsString "retry"]> ∅) nil)
    as (call & logged & Hcall & _ & Hmeta & _ & Hid & _).
  exists call, logged. repeat split; [exact Hcall | exact Hmeta | exact (Hid H)].
Defined.

Lemma nodeEnv_default_not_seen_by_errorHandler_witness :
  default "" ((∅ : gmap string string) !! "NODE_ENV") = "" /\
  AppConfigAll.nodeEnv (AppConfigAll.appConfig_all ∅) = "development" /\
  Server.body_message
    (snd (Server.errorHandler ∅ {| Server.err_message := "boom";
                                   Server.err_stack := None |})) = None.
Proof.
  split; [reflexivity|].
  apply (nodeEnv_default_not_seen_by_errorHandler ∅).
  reflexivity.
Defined.
